(** * flask_parameter_validation: the validation engine of
      [parameter_validation.py], embedded and verified.

    The embedding follows [ValidateParameters.validate] and
    [ValidateParameters.__call__.nested_func] line by line.  Python values,
    classes and [typing] annotations are inductive types; the dictionaries of
    request inputs are [gmap]s; exceptions and the calls made to the source
    binding ([convert], [validate]) are threaded through a small monad that
    returns a call log next to the result. *)

From Stdlib Require Import String Ascii ZArith List Bool.
From stdpp Require Import gmap strings list fin_maps.

Local Open Scope string_scope.
Local Open Scope list_scope.
Set Warnings "-register-all".

(** ** Python classes and values *)

(** The classes a request value can have, and any other class by name. *)
Inductive cls : Type :=
| c_NoneType | c_bool | c_int | c_float | c_str | c_bytes
| c_list | c_dict | c_FileStorage
| c_other (name : string).

Definition cls_name (c : cls) : string :=
  match c with
  | c_NoneType => "NoneType" | c_bool => "bool" | c_int => "int"
  | c_float => "float" | c_str => "str" | c_bytes => "bytes"
  | c_list => "list" | c_dict => "dict" | c_FileStorage => "FileStorage"
  | c_other name => name
  end.

Global Instance cls_eq_dec : EqDecision cls.
Proof. solve_decision. Defined.

(** Values as the framework hands them over: decoded JSON, strings of the
    query string and the forms, uploaded files.  A float is kept by its
    literal; only its class matters to the engine.  A file is kept by its
    name and the lines of its stream. *)
Inductive value : Type :=
| VNone
| VBool (b : bool)
| VInt (n : Z)
| VFloat (literal : string)
| VStr (s : string)
| VBytes (s : string)
| VList (items : list value)
| VDict (entries : list (string * value))
| VFile (filename : string) (lines : list string).

(** [type(v)] *)
Definition type_of (v : value) : cls :=
  match v with
  | VNone => c_NoneType
  | VBool _ => c_bool
  | VInt _ => c_int
  | VFloat _ => c_float
  | VStr _ => c_str
  | VBytes _ => c_bytes
  | VList _ => c_list
  | VDict _ => c_dict
  | VFile _ _ => c_FileStorage
  end.

(** [v is None] *)
Definition is_None (v : value) : bool :=
  match v with VNone => true | _ => false end.

(** [type(v) is list] *)
Definition is_list (v : value) : bool :=
  match v with VList _ => true | _ => false end.

Fixpoint chars (s : string) : list string :=
  match s with
  | EmptyString => []
  | String a rest => String a EmptyString :: chars rest
  end.

Fixpoint byte_values (s : string) : list Z :=
  match s with
  | EmptyString => []
  | String a rest => Z.of_nat (nat_of_ascii a) :: byte_values rest
  end.

(** [iter(v)]: what a [for inp in v] ranges over, [None] where Python raises
    [TypeError: '...' object is not iterable]. *)
Definition iter (v : value) : option (list value) :=
  match v with
  | VList items => Some items
  | VStr s => Some (map VStr (chars s))
  | VBytes s => Some (map VInt (byte_values s))
  | VDict entries => Some (map (fun kv => VStr (fst kv)) entries)
  | VFile _ lines => Some (map VBytes lines)
  | VNone | VBool _ | VInt _ | VFloat _ => None
  end.

(** ** Annotations of the [typing] module *)

(** A declared annotation: a class, [typing.Any], [typing.Union[...]]
    ([typing.Optional[T]] is [typing.Union[T, NoneType]]) or
    [typing.List[T]]. *)
Inductive typ : Type :=
| TCls (c : cls)
| TAny
| TUnion (members : list typ)
| TList (elt : typ).

Fixpoint join (sep : string) (l : list string) : string :=
  match l with
  | [] => ""
  | [s] => s
  | s :: rest => s ++ sep ++ join sep rest
  end.

(** How [typing] prints a type argument. *)
Fixpoint type_repr (t : typ) : string :=
  match t with
  | TCls c => cls_name c
  | TAny => "typing.Any"
  | TUnion members => "typing.Union[" ++ join ", " (List.map type_repr members) ++ "]"
  | TList elt => "typing.List[" ++ type_repr elt ++ "]"
  end.

(** [str(annotation)].  An optional type is a union with [NoneType] and
    prints as one, [typing.Union[T, NoneType]], on the interpreters the
    module was written for (up to 3.8; later ones print a union of one type
    and [NoneType] as [typing.Optional[T]], which none of the tests of
    [validate] recognises). *)
Definition str (t : typ) : string :=
  match t with
  | TCls c => "<class '" ++ cls_name c ++ "'>"
  | _ => type_repr t
  end.

(** [s.startswith(p)] *)
Definition startswith (s p : string) : bool := String.prefix p s.

(** [hasattr(t, "__args__")] and [t.__args__] *)
Definition has_args (t : typ) : bool :=
  match t with TUnion _ | TList _ => true | _ => false end.

Definition args (t : typ) : list typ :=
  match t with
  | TUnion members => members
  | TList elt => [elt]
  | _ => []
  end.

(** [hasattr(t, "__name__")] and [t.__name__]: classes have a name, the
    objects of [typing] have none. *)
Definition dunder_name (t : typ) : option string :=
  match t with TCls c => Some (cls_name c) | _ => None end.

(** [c in types], for a class [c] and a list or tuple of annotations: only a
    class is equal to a class. *)
Definition type_in (c : cls) (types : list typ) : bool :=
  existsb (fun t => match t with TCls c' => bool_decide (c = c') | _ => false end) types.

(** [all(type(inp) in types for inp in inputs)] *)
Definition all_type_in (types : list typ) (inputs : list value) : bool :=
  forallb (fun inp => type_in (type_of inp) types) inputs.

(** ** Source bindings, parameters, exceptions *)

(** The class of the object a parameter declares as its default: one of the
    five delivery classes of [parameter_types], or anything else. *)
Inductive delivery : Type :=
| Route | Json | Query | Form | File
| NotDelivery (class_name : string).

Global Instance delivery_eq_dec : EqDecision delivery.
Proof. solve_decision. Defined.

Definition delivery_code (d : delivery) : nat + string :=
  match d with
  | Route => inl 0 | Json => inl 1 | Query => inl 2 | Form => inl 3
  | File => inl 4
  | NotDelivery n => inr n
  end.

Definition delivery_decode (x : nat + string) : option delivery :=
  match x with
  | inl 0 => Some Route | inl 1 => Some Json | inl 2 => Some Query
  | inl 3 => Some Form | inl 4 => Some File
  | inl _ => None
  | inr n => Some (NotDelivery n)
  end.

Global Instance delivery_countable : Countable delivery.
Proof.
  apply (inj_countable delivery_code delivery_decode).
  intros []; reflexivity.
Defined.

(** The exceptions that travel through the engine.  [ValueError] stands for
    every instance of the built-in class (subclasses included) and carries
    [str(e)]; [OtherError] is an exception of any class that is none of the
    others.  [InvalidParameterTypeError] is raised with the declared default
    object, kept here by its class. *)
Inductive exn : Type :=
| MissingInputError (name : string) (source : delivery)
| InvalidParameterTypeError (given : delivery)
| ValidationError (message : string) (name : string) (type : typ)
| ValueError (message : string)
| TypeError (message : string)
| OtherError (class_name : string) (message : string).

(** The object given as a parameter's default, [Json(...)], [Query(...)],
    ...: its class, its [default] attribute and its two methods.  The
    classes are declared in [parameter_types], so the methods are fields.
    [convert] is a function of its arguments (it returns the coerced value
    and leaves the one it is given as it was); [validate] answers [None]
    when it returns, [Some e] when it raises. *)
Module Binding.
Record t : Type := Make {
  class : delivery;
  default : value;
  convert : value -> list typ -> value;
  validate : value -> option exn
}.
End Binding.

(** One entry of [signature(f).parameters]. *)
Module Param.
Record t : Type := Make {
  name : string;
  annotation : typ;
  default : Binding.t
}.
End Param.

(** ** Results, exceptions and the log of calls to the binding *)

Inductive event : Type :=
| Converted (by_ : delivery) (raw : value) (candidates : list typ)
| Validated (by_ : delivery) (v : value).

Inductive result (A : Type) : Type :=
| Ok (a : A)
| Raise (e : exn).
Arguments Ok {A} a.
Arguments Raise {A} e.

Definition M (A : Type) : Type := list event * result A.

Definition ret {A} (a : A) : M A := ([], Ok a).
Definition raise {A} (e : exn) : M A := ([], Raise e).
Definition bind {A B} (m : M A) (k : A -> M B) : M B :=
  match m with
  | (log, Ok a) => let '(log', r) := k a in (log ++ log', r)
  | (log, Raise e) => (log, Raise e)
  end.

Notation "x <- m ;; k" := (bind m (fun x => k))
  (at level 100, m at next level, right associativity).

(** [b.convert(v, types)] and [b.validate(v)], logged. *)
Definition call_convert (b : Binding.t) (v : value) (types : list typ) : M value :=
  ([Converted (Binding.class b) v types], Ok (Binding.convert b v types)).

Definition call_validate (b : Binding.t) (v : value) : M unit :=
  ([Validated (Binding.class b) v],
   match Binding.validate b v with None => Ok tt | Some e => Raise e end).

(** [try: m  except ValueError as e: raise h(str(e))] *)
Definition except_ValueError {A} (m : M A) (h : string -> exn) : M A :=
  match m with
  | (log, Raise (ValueError message)) => (log, Raise (h message))
  | other => other
  end.

(** [for inp in v], raising [TypeError] on what cannot be iterated. *)
Definition iterate (v : value) : M (list value) :=
  match iter v with
  | Some items => ret items
  | None => raise (TypeError ("'" ++ cls_name (type_of v) ++ "' object is not iterable"))
  end.

(** ** [ValidateParameters.validate] *)

(** A flat mapping of one source, and [d.get(name)]. *)
Abbreviation dict := (gmap string value).

Definition get (d : dict) (name : string) : value :=
  match d !! name with Some v => v | None => VNone end.

(** The four variables that lines 93-112 prepare for the checks. *)
Record prepared : Type := Prepared {
  expected_input_type : typ;
  expected_input_types : list typ;
  expected_input_type_str : string;
  user_inputs : value
}.

(** One round of the loop of lines 97-105: a member printed as a list, a
    supplied list, and every element of a class among the member's
    arguments rebind the four variables; anything else leaves them. *)
Definition elect (user_input : value) (st : prepared) (exp_type : typ) : prepared :=
  if startswith (str exp_type) "typing.List" then
    match user_input with
    | VList items =>
        if all_type_in (args exp_type) items then
          {| expected_input_type := exp_type;
             expected_input_types := args exp_type;
             expected_input_type_str := str exp_type;
             user_inputs := user_input |}
        else st
    | _ => st
    end
  else st.

(** Lines 93-112.  The loop ranges over the members of the declared union:
    rebinding [expected_input_types] inside it does not change what it
    ranges over. *)
Definition prepare (declared : typ) (user_input : value) : prepared :=
  let declared_str := str declared in
  if startswith declared_str "typing.Union" then
    fold_left (elect user_input) (args declared)
      {| expected_input_type := declared;
         expected_input_types := args declared;
         expected_input_type_str := declared_str;
         user_inputs := VList [user_input] |}
  else if startswith declared_str "typing.List" then
    {| expected_input_type := declared;
       expected_input_types := args declared;
       expected_input_type_str := declared_str;
       user_inputs := user_input |}
  else
    {| expected_input_type := declared;
       expected_input_types := [declared];
       expected_input_type_str := declared_str;
       user_inputs := VList [user_input] |}.

(** Lines 127-130: the name the type-mismatch message prints. *)
Definition type_name (original : typ) : string :=
  match dunder_name original with
  | Some n => if negb (startswith (str original) "typing.") then n else str original
  | None => str original
  end.

Definition must_be (original : typ) : string :=
  "must be type '" ++ type_name original ++ "'".

(** Lines 88-140: what [validate] does with a raw value it has kept
    ([user_input] as supplied, or the default put in its place). *)
Definition check (expected_input : Param.t) (user_input : value) : M value :=
  let expected_name := Param.name expected_input in
  let original_expected_input_type := Param.annotation expected_input in
  let expected_delivery_type := Param.default expected_input in
  if startswith (str original_expected_input_type) "typing.Any" then
    ret user_input
  else
    let p := prepare original_expected_input_type user_input in
    converted <- call_convert expected_delivery_type user_input (expected_input_types p) ;;
    checked <- iterate (user_inputs p) ;;
    let validation_success := all_type_in (expected_input_types p) checked in
    let validation_success :=
      if startswith (expected_input_type_str p) "typing.List" then
        if negb (is_list converted) then false else validation_success
      else validation_success in
    if negb validation_success then
      raise (ValidationError (must_be original_expected_input_type)
               expected_name original_expected_input_type)
    else
      _ <- except_ValueError
             (call_validate expected_delivery_type converted)
             (fun message => ValidationError message expected_name (expected_input_type p)) ;;
      ret converted.

(** Lines 53-140. *)
Definition validate (expected_input : Param.t)
    (all_request_inputs : gmap delivery dict) : M value :=
  let expected_name := Param.name expected_input in
  let expected_input_type := Param.annotation expected_input in
  let expected_delivery_type := Param.default expected_input in
  match all_request_inputs !! Binding.class expected_delivery_type with
  | None => raise (InvalidParameterTypeError (Binding.class expected_delivery_type))
  | Some source =>
      let user_input := get source expected_name in
      if is_None user_input then
        if negb (is_None (Binding.default expected_delivery_type)) then
          check expected_input (Binding.default expected_delivery_type)
        else if has_args expected_input_type
                && type_in (type_of VNone) (args expected_input_type) then
          ret user_input
        else
          raise (MissingInputError expected_name (Binding.class expected_delivery_type))
      else check expected_input user_input
  end.

(** ** [ValidateParameters.__call__.nested_func] *)

(** The request object of the framework: the decoded body ([None] when
    there is none) and the multi-dicts of query string, form and files.
    [to_dict()] keeps the first value of each key. *)
Abbreviation multidict := (gmap string (list value)).

Definition to_dict (m : multidict) : dict := omap head m.

Module Request.
Record t : Type := Make {
  json : option dict;
  args : multidict;
  form : multidict;
  files : multidict
}.
End Request.

(** Lines 22-28; [request.json or {}] is the body, or an empty mapping. *)
Definition request_inputs (request : Request.t) (kwargs : dict) : gmap delivery dict :=
  <[Route := kwargs]>
  (<[Json := match Request.json request with Some body => body | None => ∅ end]>
  (<[Query := to_dict (Request.args request)]>
  (<[Form := to_dict (Request.form request)]>
  (<[File := to_dict (Request.files request)]> ∅)))).

(** What a call of [nested_func] comes to: the default error payload
    [({"error": message}, status)], a value returned by the handler or by
    the custom error handler, or an exception that leaves the function. *)
Inductive response (R : Type) : Type :=
| ErrorPayload (error : string) (status : Z)
| Returns (r : R)
| Propagates (e : exn).
Arguments ErrorPayload {R} error status.
Arguments Returns {R} r.
Arguments Propagates {R} e.

Section Session.

Context {R : Type}.

(** [str(e)] of the exception classes of the [exceptions] module. *)
Variable exc_str : exn -> string.

(** [self.custom_error_handler], the decorated handler [f] and its
    parameters [signature(f).parameters]. *)
Variable custom_error_handler : option (exn -> R).
Variable f : dict -> R.

(** Lines 33-48: the loop over the expected inputs, then the call of the
    handler. *)
Fixpoint validate_each (all_request_inputs : gmap delivery dict) (kwargs : dict)
    (expected_inputs : list Param.t) (validated_inputs : dict)
    : list event * response R :=
  match expected_inputs with
  | [] => ([], Returns (f kwargs))
  | expected :: rest =>
      match custom_error_handler with
      | None =>
          match validate expected all_request_inputs with
          | (log, Ok new_input) =>
              let '(log', r) :=
                validate_each all_request_inputs kwargs rest
                  (<[Param.name expected := new_input]> validated_inputs) in
              (log ++ log', r)
          | (log, Raise (MissingInputError _ _ as e)) => (log, ErrorPayload (exc_str e) 400)
          | (log, Raise (ValidationError _ _ _ as e)) => (log, ErrorPayload (exc_str e) 400)
          | (log, Raise e) => (log, Propagates e)
          end
      | Some handler =>
          match validate expected all_request_inputs with
          | (log, Ok new_input) =>
              let '(log', r) :=
                validate_each all_request_inputs kwargs rest
                  (<[Param.name expected := new_input]> validated_inputs) in
              (log ++ log', r)
          | (log, Raise e) => (log, Returns (handler e))
          end
      end
  end.

(** Lines 20-48. *)
Definition nested_func (expected_inputs : list Param.t) (request : Request.t)
    (kwargs : dict) : list event * response R :=
  validate_each (request_inputs request kwargs) kwargs expected_inputs ∅.

End Session.

(** ** The handler of the module's own test *)

Module Test.

(** Modelled from the spec: [convert] of the classes of [parameter_types],
    which is not part of the sources.  It coerces the text of a truth value
    when [bool] is a candidate and returns any other value unchanged. *)
Definition convert (v : value) (candidates : list typ) : value :=
  match v with
  | VStr s =>
      if type_in c_bool candidates then
        if bool_decide (s = "true") || bool_decide (s = "1") then VBool true
        else if bool_decide (s = "false") || bool_decide (s = "0") then VBool false
        else v
      else v
  | _ => v
  end.

(** Modelled from the spec: [validate] of the classes of
    [parameter_types].  It checks the bounds given for an integer and
    accepts any other value. *)
Definition validate (min_int max_int : option Z) (v : value) : option exn :=
  match v with
  | VInt n =>
      if match min_int with Some lo => (n <? lo)%Z | None => false end
      then Some (ValueError "must be larger than minimum")
      else if match max_int with Some hi => (hi <? n)%Z | None => false end
      then Some (ValueError "must be smaller than maximum")
      else None
  | _ => None
  end.

Definition binding (c : delivery) (default : value) (min_int max_int : option Z) : Binding.t :=
  Binding.Make c default convert (validate min_int max_int).

(** The parameters of [hello], lines 161-168 (the constraints on strings
    are left out). *)
Definition id : Param.t :=
  Param.Make "id" (TCls c_int) (binding Route VNone None None).
Definition username : Param.t :=
  Param.Make "username" (TCls c_str) (binding Json VNone None None).
Definition age : Param.t :=
  Param.Make "age" (TCls c_int) (binding Json VNone (Some 18%Z) (Some 99%Z)).
Definition nicknames : Param.t :=
  Param.Make "nicknames" (TList (TCls c_str)) (binding Json VNone None None).
Definition password_expiry : Param.t :=
  Param.Make "password_expiry" (TUnion [TCls c_int; TCls c_float])
    (binding Json VNone None None).
Definition is_admin : Param.t :=
  Param.Make "is_admin" (TCls c_bool) (binding Query (VBool false) None None).

Definition hello : list Param.t :=
  [id; username; age; nicknames; password_expiry; is_admin].

Definition body : dict :=
  list_to_map [("username", VStr "alice"); ("age", VInt 30);
               ("nicknames", VList [VStr "al"; VStr "bo"]);
               ("password_expiry", VInt 7)].

Definition request (age : Z) (query : list (string * list value)) : Request.t :=
  Request.Make (Some (<["age" := VInt age]> body)) (list_to_map query) ∅ ∅.

Definition route : dict := {[ "id" := VInt 3 ]}.

(** Modelled from the spec: [str(e)] for the exceptions of [exceptions],
    which is not part of the sources either: the message the error
    carries (for a missing input, the name of the parameter). *)
Definition exc_str (e : exn) : string :=
  match e with
  | MissingInputError name _ => name
  | InvalidParameterTypeError _ => ""
  | ValidationError message _ _ => message
  | ValueError message | TypeError message | OtherError _ message => message
  end.

End Test.

(** * The vocabulary of the properties *)

Definition plain_checks (declared : typ) (user_input : value) : prepared :=
  Prepared declared [declared] (str declared) (VList [user_input]).

Definition list_checks (member : typ) (user_input : value) : prepared :=
  Prepared member (args member) (str member) user_input.

Definition union_checks (declared : typ) (user_input : value) : prepared :=
  Prepared declared (args declared) (str declared) (VList [user_input]).

(** A union member that the supplied value elects: a list type, for a
    supplied list whose elements all have the member's element class. *)
Definition matches (user_input : value) (member : typ) : bool :=
  match member, user_input with
  | TList elt, VList items => all_type_in [elt] items
  | _, _ => false
  end.

(** The member a union is collapsed to: the last one that matches. *)
Definition elected (members : list typ) (user_input : value) : option typ :=
  last (filter (fun m => matches user_input m = true) members).

(** The list-shape requirement lines 121-123 test for. *)
Definition list_shaped (p : prepared) : bool :=
  startswith (expected_input_type_str p) "typing.List".

(** The outcome of the binding's semantic validator, as lines 134-140 pass
    it on: only a [ValueError] is wrapped. *)
Definition semantic (b : Binding.t) (name : string) (t : typ) (converted : value)
    : result value :=
  match Binding.validate b converted with
  | None => Ok converted
  | Some (ValueError message) => Raise (ValidationError message name t)
  | Some e => Raise e
  end.

(** The error of a failed type check, line 131. *)
Definition mismatch (p : Param.t) : exn :=
  ValidationError (must_be (Param.annotation p)) (Param.name p) (Param.annotation p).

Definition not_iterable (v : value) : exn :=
  TypeError ("'" ++ cls_name (type_of v) ++ "' object is not iterable").

(** The test of line 83. *)
Definition null_in_args (t : typ) : bool :=
  has_args t && type_in c_NoneType (args t).

(** A parameter that validates, and the calls a run of parameters logs. *)
Definition succeeds (inputs : gmap delivery dict) (p : Param.t) : Prop :=
  exists v, (validate p inputs).2 = Ok v.

Definition logs (inputs : gmap delivery dict) (ps : list Param.t) : list event :=
  concat (List.map (fun p => (validate p inputs).1) ps).

(** The errors the default mode answers with a payload. *)
Definition request_error (e : exn) : bool :=
  match e with
  | MissingInputError _ _ | ValidationError _ _ _ => true
  | _ => false
  end.

(** The raw value [validate] goes on with, lines 76-86: the supplied value,
    or the default in the place of a missing one. *)
Definition raw_value (p : Param.t) (inputs : gmap delivery dict) : option value :=
  match inputs !! Binding.class (Param.default p) with
  | None => None
  | Some source =>
      match get source (Param.name p) with
      | VNone =>
          match Binding.default (Param.default p) with
          | VNone => None
          | d => Some d
          end
      | user_input => Some user_input
      end
  end.

(** Conformance of a value to prepared checks, in the words of step 7:
    the value must be a list when the checks are list-shaped, and every
    element (the value itself, or each element of the list) must have a
    class among the candidates. *)
Definition conforms (n : prepared) (v : value) : bool :=
  if list_shaped n then
    match v with
    | VList items => all_type_in (expected_input_types n) items
    | _ => false
    end
  else type_in (type_of v) (expected_input_types n).

(** What [validate] reads of a bundle for a parameter: the entry of the
    parameter's name in the source of its binding's class, if there is such
    a source. *)
Definition reads (p : Param.t) (inputs : gmap delivery dict) : option value :=
  (fun source => get source (Param.name p))
    <$> inputs !! Binding.class (Param.default p).

(** * Properties *)

(** ** How annotations print *)

Lemma str_union members :
  startswith (str (TUnion members)) "typing.Union" = true.
Proof. reflexivity. Qed.

Lemma str_list elt :
  startswith (str (TList elt)) "typing.Union" = false
  /\ startswith (str (TList elt)) "typing.List" = true
  /\ startswith (str (TList elt)) "typing.Any" = false.
Proof. repeat split; reflexivity. Qed.

Lemma str_cls c prefix :
  prefix = "typing.Union" \/ prefix = "typing.List" \/ prefix = "typing.Any"
  \/ prefix = "typing." ->
  startswith (str (TCls c)) prefix = false.
Proof. intros [-> | [-> | [-> | ->]]]; reflexivity. Qed.

Lemma str_any_only t :
  startswith (str t) "typing.Any" = true <-> t = TAny.
Proof.
  split; [|intros ->; reflexivity].
  destruct t; try reflexivity; discriminate.
Qed.

Lemma str_list_only t :
  startswith (str t) "typing.List" = true <-> exists elt, t = TList elt.
Proof.
  split; [|intros [elt ->]; reflexivity].
  destruct t; try discriminate. eauto.
Qed.

(** ** The prepared checks, by the shape of the declared type *)

Lemma elect_matches user_input st member :
  elect user_input st member =
  if matches user_input member then list_checks member user_input else st.
Proof.
  unfold elect, matches.
  destruct member as [c| |ms|elt]; try reflexivity.
  destruct user_input; reflexivity.
Qed.

Lemma fold_elect user_input members : forall st,
  fold_left (elect user_input) members st =
  match elected members user_input with
  | Some member => list_checks member user_input
  | None => st
  end.
Proof.
  unfold elected.
  induction members as [|m rest IH]; intros st; [reflexivity|].
  cbn [fold_left]. rewrite IH, elect_matches, filter_cons.
  destruct (matches user_input m) eqn:Hm.
  - rewrite decide_True by reflexivity. rewrite last_cons.
    destruct (last (filter _ rest)); reflexivity.
  - rewrite decide_False by discriminate. reflexivity.
Qed.

Lemma prepare_union members user_input :
  prepare (TUnion members) user_input =
  match elected members user_input with
  | Some member => list_checks member user_input
  | None => union_checks (TUnion members) user_input
  end.
Proof. unfold prepare. rewrite str_union. apply fold_elect. Qed.

Lemma prepare_list elt user_input :
  prepare (TList elt) user_input = list_checks (TList elt) user_input.
Proof. reflexivity. Qed.

Lemma prepare_cls c user_input :
  prepare (TCls c) user_input = plain_checks (TCls c) user_input.
Proof. reflexivity. Qed.

Lemma elected_is_list members user_input member :
  elected members user_input = Some member ->
  exists elt items,
    member = TList elt /\ member ∈ members /\ user_input = VList items
    /\ all_type_in [elt] items = true.
Proof.
  unfold elected. intros Hl.
  apply last_Some_elem_of in Hl.
  apply list_elem_of_filter in Hl as [Hm Hin].
  destruct member as [c| |ms|elt]; try discriminate.
  destruct user_input; try discriminate.
  eauto 10.
Qed.

(** The checked elements are the supplied value's own when the prepared
    checks are list-shaped, the supplied value alone otherwise. *)
Lemma user_inputs_prepare declared user_input :
  user_inputs (prepare declared user_input) =
  if list_shaped (prepare declared user_input) then user_input
  else VList [user_input].
Proof.
  destruct declared as [c| |members|elt]; try reflexivity.
  rewrite prepare_union.
  destruct (elected members user_input) as [member|] eqn:He; [|reflexivity].
  apply elected_is_list in He as (elt & items & -> & _ & -> & _).
  reflexivity.
Qed.

(** ** The steps of [validate] *)

Lemma check_any p user_input :
  Param.annotation p = TAny -> check p user_input = ([], Ok user_input).
Proof. unfold check. intros ->. reflexivity. Qed.

Lemma check_steps p user_input :
  Param.annotation p <> TAny ->
  let b := Param.default p in
  let n := prepare (Param.annotation p) user_input in
  let converted := Binding.convert b user_input (expected_input_types n) in
  let conversion := Converted (Binding.class b) user_input (expected_input_types n) in
  check p user_input =
  match iter (user_inputs n) with
  | None => ([conversion], Raise (not_iterable (user_inputs n)))
  | Some checked =>
      if all_type_in (expected_input_types n) checked
         && (negb (list_shaped n) || is_list converted)
      then ([conversion; Validated (Binding.class b) converted],
            semantic b (Param.name p) (expected_input_type n) converted)
      else ([conversion], Raise (mismatch p))
  end.
Proof.
  intros Hany. cbn zeta. unfold check.
  destruct (startswith (str (Param.annotation p)) "typing.Any") eqn:Hs.
  { apply str_any_only in Hs. contradiction. }
  unfold call_convert, iterate, bind, list_shaped, semantic, mismatch, not_iterable.
  destruct (iter _) as [checked|]; [|reflexivity].
  cbn [ret raise app].
  destruct (all_type_in _ checked);
    destruct (startswith (expected_input_type_str _) "typing.List");
    cbn [negb andb orb]; try reflexivity.
  - destruct (is_list _); cbn [negb]; [|reflexivity].
    unfold except_ValueError, call_validate.
    destruct (Binding.validate _ _) as [[]|]; reflexivity.
  - unfold except_ValueError, call_validate.
    destruct (Binding.validate _ _) as [[]|]; reflexivity.
  - destruct (is_list _); reflexivity.
Qed.

(** Lines 72-86: a parameter whose source holds a value other than [None]
    is checked on that value. *)
Lemma validate_present p inputs source user_input :
  inputs !! Binding.class (Param.default p) = Some source ->
  source !! Param.name p = Some user_input ->
  user_input <> VNone ->
  validate p inputs = check p user_input.
Proof.
  intros Hs Hv Hn. unfold validate, get. rewrite Hs, Hv.
  destruct user_input; try reflexivity. contradiction.
Qed.

Lemma validate_raw_value p inputs user_input :
  raw_value p inputs = Some user_input ->
  validate p inputs = check p user_input.
Proof.
  unfold raw_value, validate.
  destruct (inputs !! _) as [source|]; [|discriminate].
  destruct (get source (Param.name p)); cbn [is_None];
    try (intros [= <-]; reflexivity).
  destruct (Binding.default (Param.default p)); cbn [is_None negb];
    intros [= <-]; reflexivity.
Qed.

(** Lines 72-86: a parameter for which [get] answers [None]. *)
Lemma validate_absent p inputs source :
  inputs !! Binding.class (Param.default p) = Some source ->
  get source (Param.name p) = VNone ->
  validate p inputs =
  if negb (is_None (Binding.default (Param.default p))) then
    check p (Binding.default (Param.default p))
  else if null_in_args (Param.annotation p) then ([], Ok VNone)
  else ([], Raise (MissingInputError (Param.name p) (Binding.class (Param.default p)))).
Proof.
  intros Hs Hv. unfold validate. rewrite Hs, Hv. reflexivity.
Qed.

Lemma validate_unknown_source p inputs :
  inputs !! Binding.class (Param.default p) = None ->
  validate p inputs =
  ([], Raise (InvalidParameterTypeError (Binding.class (Param.default p)))).
Proof. intros Hs. unfold validate. rewrite Hs. reflexivity. Qed.

Lemma type_in_elem_of c types :
  type_in c types = true <-> TCls c ∈ types.
Proof.
  unfold type_in. rewrite existsb_exists. split.
  - intros (t & Hin & Ht). destruct t; try discriminate.
    apply bool_decide_eq_true in Ht as ->. by apply list_elem_of_In.
  - intros Hin. exists (TCls c). split; [by apply list_elem_of_In|].
    by apply bool_decide_eq_true.
Qed.

(** Whatever [validate] does, it either checks one value that is not
    [None], or ends before any call to the binding. *)
Lemma validate_cases p inputs :
  (exists user_input, user_input <> VNone /\ validate p inputs = check p user_input)
  \/ (exists r, validate p inputs = ([], r)).
Proof.
  unfold validate.
  destruct (inputs !! _) as [source|]; [|right; eauto].
  destruct (get source (Param.name p)) eqn:Hg; cbn [is_None];
    try (left; eexists; split; [|reflexivity]; discriminate).
  destruct (Binding.default (Param.default p)) eqn:Hd; cbn [is_None negb];
    try (left; eexists; split; [|reflexivity]; discriminate).
  destruct (_ && _); right; eauto.
Qed.

(** The log of a check: the conversion of the checked value, then at most
    the validation of what the conversion returned. *)
Lemma check_log p user_input log r :
  check p user_input = (log, r) ->
  let b := Param.default p in
  let n := prepare (Param.annotation p) user_input in
  let converted := Binding.convert b user_input (expected_input_types n) in
  let conversion := Converted (Binding.class b) user_input (expected_input_types n) in
  log = [] /\ Param.annotation p = TAny
  \/ log = [conversion] /\ Param.annotation p <> TAny
     /\ (r = Raise (mismatch p) \/ r = Raise (not_iterable (user_inputs n)))
  \/ log = [conversion; Validated (Binding.class b) converted]
     /\ Param.annotation p <> TAny
     /\ r = semantic b (Param.name p) (expected_input_type n) converted.
Proof.
  cbn zeta. intros Hc.
  destruct (Param.annotation p) as [c| |members|elt] eqn:Ht;
    try (rewrite check_any in Hc by assumption; left; split; congruence);
    right; (rewrite check_steps in Hc by congruence); rewrite Ht in Hc;
    (destruct (iter _);
     [destruct (_ && _); inversion Hc; subst; [right|left]
     |inversion Hc; subst; left]);
    repeat split; auto; discriminate.
Qed.

(** ** Absent parameters *)

(** C4. An optional parameter (declared as a union that has the null marker
    among its members) whose source holds nothing under its name and whose
    binding has no default other than [None] is validated to [None], and the
    log of calls is empty: the binding's [convert] and [validate] are not
    invoked, and the type check, which follows the conversion, is never
    reached. *)
Theorem optional_absent_is_none p inputs source members :
  inputs !! Binding.class (Param.default p) = Some source ->
  source !! Param.name p = None ->
  Binding.default (Param.default p) = VNone ->
  Param.annotation p = TUnion members ->
  TCls c_NoneType ∈ members ->
  validate p inputs = ([], Ok VNone).
Proof.
  intros Hs Hv Hd Ht Hin.
  rewrite (validate_absent p inputs source Hs) by (unfold get; by rewrite Hv).
  rewrite Hd, Ht. unfold null_in_args. cbn [is_None negb has_args args andb].
  apply type_in_elem_of in Hin. by rewrite Hin.
Qed.

Lemma optional_absent_is_none_witness :
  validate
    (Param.Make "nick" (TUnion [TCls c_str; TCls c_NoneType])
       (Test.binding Json VNone None None))
    {[ Json := ∅ ]}
  = ([], Ok VNone).
Proof.
  apply (optional_absent_is_none _ _ ∅ [TCls c_str; TCls c_NoneType]);
    try reflexivity.
  apply list_elem_of_In. cbn. auto.
Defined.

(** The three ways of an absent parameter, for every declared type: the
    default if there is one, [None] if the declared type has the null marker
    among its arguments, the missing-input error otherwise. *)
Lemma absence_paths p inputs source :
  inputs !! Binding.class (Param.default p) = Some source ->
  source !! Param.name p = None ->
  let b := Param.default p in
  (Binding.default b <> VNone -> validate p inputs = check p (Binding.default b))
  /\ (Binding.default b = VNone -> null_in_args (Param.annotation p) = true ->
      validate p inputs = ([], Ok VNone))
  /\ (Binding.default b = VNone -> null_in_args (Param.annotation p) = false ->
      validate p inputs
      = ([], Raise (MissingInputError (Param.name p) (Binding.class b)))).
Proof.
  intros Hs Hv. cbn zeta.
  rewrite (validate_absent p inputs source Hs) by (unfold get; by rewrite Hv).
  repeat split.
  - intros Hd. destruct (Binding.default _); try reflexivity. contradiction.
  - intros -> ->. reflexivity.
  - intros -> ->. reflexivity.
Qed.

(** C5. Where the property fails: a parameter declared [List[None]], bound
    to the body, with no default, and a body without it.  The declared type
    is a list, not an optional, so the missing-input error is due;
    line 83 finds the null marker among the arguments of the list type and
    [validate] returns [None]. *)
Theorem list_of_none_absent_is_not_missing :
  let p := Param.Make "flags" (TList (TCls c_NoneType))
             (Test.binding Json VNone None None) in
  validate p {[ Json := ∅ ]} = ([], Ok VNone)
  /\ validate p {[ Json := ∅ ]} <> ([], Raise (MissingInputError "flags" Json)).
Proof. split; [reflexivity|discriminate]. Qed.

(** No call of [convert] is ever given [None]: the value that is converted
    is a supplied value other than [None], or a default other than [None]. *)
Lemma converted_is_not_none p inputs log r c v candidates :
  validate p inputs = (log, r) ->
  Converted c v candidates ∈ log ->
  v <> VNone /\ c = Binding.class (Param.default p)
  /\ candidates = expected_input_types (prepare (Param.annotation p) v).
Proof.
  intros Hv Hin.
  destruct (validate_cases p inputs) as [(u & Hu & Hc)|(r' & Hr)].
  - rewrite Hc in Hv. apply check_log in Hv.
    destruct Hv as [[-> _]|[(-> & _)|(-> & _)]].
    + by apply not_elem_of_nil in Hin.
    + apply list_elem_of_singleton in Hin. by inversion Hin; subst.
    + apply elem_of_cons in Hin as [Hin|Hin]; [by inversion Hin; subst|].
      apply list_elem_of_singleton in Hin. discriminate.
  - rewrite Hr in Hv. inversion Hv; subst. by apply not_elem_of_nil in Hin.
Qed.

(** C9. Absence is decided by [get] answering [None]: a parameter whose
    source holds an explicit [None] under its name is validated exactly as
    if the name were not there, log included.  It goes the way of the
    default, of the optional or of the missing input, and no call of
    [convert] in the log has [None] for its value. *)
Theorem null_value_is_absence p inputs source :
  inputs !! Binding.class (Param.default p) = Some source ->
  source !! Param.name p = Some VNone ->
  let b := Param.default p in
  validate p inputs
  = validate p (<[Binding.class b := delete (Param.name p) source]> inputs)
  /\ validate p inputs
     = (if negb (is_None (Binding.default b)) then check p (Binding.default b)
        else if null_in_args (Param.annotation p) then ([], Ok VNone)
        else ([], Raise (MissingInputError (Param.name p) (Binding.class b))))
  /\ (forall c candidates, Converted c VNone candidates ∉ (validate p inputs).1).
Proof.
  intros Hs Hv. cbn zeta. repeat split.
  - rewrite (validate_absent p inputs source Hs) by (unfold get; by rewrite Hv).
    rewrite (validate_absent p _ (delete (Param.name p) source));
      [reflexivity|apply lookup_insert_eq|].
    unfold get. by rewrite lookup_delete_eq.
  - apply (validate_absent p inputs source Hs). unfold get. by rewrite Hv.
  - intros c candidates Hin.
    destruct (validate p inputs) as [log r] eqn:Hval.
    by destruct (converted_is_not_none _ _ _ _ _ _ _ Hval Hin) as [Hn _].
Qed.

Lemma null_value_is_absence_witness :
  validate Test.age {[ Json := {[ "age" := VNone ]} ]}
  = ([], Raise (MissingInputError "age" Json)).
Proof.
  refine (eq_trans
    (proj1 (proj2 (null_value_is_absence Test.age _ {[ "age" := VNone ]} _ _))) _);
    reflexivity.
Defined.

(** ** The semantic validator *)

(** C10. Whenever [validate] has invoked the binding's validator, the log
    is the conversion of one value followed by that invocation on the
    converted value, and the outcome is the validator's: the converted value
    if it returns; a [ValidationError] with the message of the [ValueError],
    the parameter's name and the type the checks were prepared for (the
    elected list member, if one was elected) if it raises a [ValueError];
    the very exception it raises, if it is of any other class. *)
Theorem only_value_error_is_wrapped p inputs log r c v :
  validate p inputs = (log, r) ->
  Validated c v ∈ log ->
  exists user_input,
    let b := Param.default p in
    let n := prepare (Param.annotation p) user_input in
    v = Binding.convert b user_input (expected_input_types n)
    /\ log = [Converted (Binding.class b) user_input (expected_input_types n);
              Validated (Binding.class b) v]
    /\ r = match Binding.validate b v with
           | None => Ok v
           | Some (ValueError message) =>
               Raise (ValidationError message (Param.name p) (expected_input_type n))
           | Some e => Raise e
           end.
Proof.
  intros Hv Hin.
  destruct (validate_cases p inputs) as [(u & Hu & Hc)|(r' & Hr)].
  - rewrite Hc in Hv. apply check_log in Hv. exists u.
    destruct Hv as [[-> _]|[(-> & _)|(-> & _ & ->)]].
    + by apply not_elem_of_nil in Hin.
    + apply list_elem_of_singleton in Hin. discriminate.
    + apply elem_of_cons in Hin as [Hin|Hin]; [discriminate|].
      apply list_elem_of_singleton in Hin. inversion Hin; subst.
      repeat split.
  - rewrite Hr in Hv. inversion Hv; subst. by apply not_elem_of_nil in Hin.
Qed.

Lemma only_value_error_is_wrapped_witness :
  exists user_input,
    let b := Param.default Test.age in
    let n := prepare (Param.annotation Test.age) user_input in
    VInt 15 = Binding.convert b user_input (expected_input_types n)
    /\ [Converted Json (VInt 15) [TCls c_int]; Validated Json (VInt 15)]
       = [Converted (Binding.class b) user_input (expected_input_types n);
          Validated (Binding.class b) (VInt 15)]
    /\ Raise (ValidationError "must be larger than minimum" "age" (TCls c_int))
       = match Binding.validate b (VInt 15) with
         | None => Ok (VInt 15)
         | Some (ValueError message) =>
             Raise (ValidationError message (Param.name Test.age) (expected_input_type n))
         | Some e => Raise e
         end.
Proof.
  apply (only_value_error_is_wrapped Test.age
           {[ Json := {[ "age" := VInt 15 ]} ]} _ _ Json (VInt 15)).
  - reflexivity.
  - apply list_elem_of_In. cbn. auto.
Defined.

(** ** The session *)

Section SessionFacts.

Context {R : Type}.
Variable exc_str : exn -> string.
Variable custom_error_handler : option (exn -> R).
Variable f : dict -> R.
Variable inputs : gmap delivery dict.
Variable kwargs : dict.

(** [validated_inputs] is written and never read. *)
Lemma validated_inputs_unused ps : forall v1 v2,
  validate_each exc_str custom_error_handler f inputs kwargs ps v1
  = validate_each exc_str custom_error_handler f inputs kwargs ps v2.
Proof.
  induction ps as [|p ps IH]; intros v1 v2; [reflexivity|].
  cbn [validate_each].
  destruct custom_error_handler, (validate p inputs) as [log [v|e]];
    try reflexivity;
    by rewrite (IH _ (<[Param.name p := v]> v2)).
Qed.

Lemma validate_each_ok p ps validated log v :
  validate p inputs = (log, Ok v) ->
  validate_each exc_str custom_error_handler f inputs kwargs (p :: ps) validated
  = (log ++ (validate_each exc_str custom_error_handler f inputs kwargs ps validated).1,
     (validate_each exc_str custom_error_handler f inputs kwargs ps validated).2).
Proof.
  intros Hv. cbn [validate_each]. rewrite Hv.
  rewrite (validated_inputs_unused ps _ validated).
  destruct custom_error_handler, (validate_each _ _ _ _ _ ps validated);
    reflexivity.
Qed.

Lemma validate_each_prefix before rest validated :
  Forall (succeeds inputs) before ->
  validate_each exc_str custom_error_handler f inputs kwargs (before ++ rest) validated
  = (logs inputs before
       ++ (validate_each exc_str custom_error_handler f inputs kwargs rest validated).1,
     (validate_each exc_str custom_error_handler f inputs kwargs rest validated).2).
Proof.
  induction 1 as [|p before [v Hp] _ IH]; cbn [app].
  - by destruct (validate_each _ _ _ _ _ rest validated).
  - destruct (validate p inputs) as [log r] eqn:Hv. cbn in Hp. subst r.
    rewrite (validate_each_ok _ _ _ _ _ Hv), IH.
    unfold logs. cbn [List.map concat fst snd]. rewrite Hv.
    by rewrite <- app_assoc.
Qed.

Lemma validate_each_raise p ps validated log e :
  validate p inputs = (log, Raise e) ->
  validate_each exc_str custom_error_handler f inputs kwargs (p :: ps) validated
  = (log,
     match custom_error_handler with
     | Some handler => Returns (handler e)
     | None => if request_error e then ErrorPayload (exc_str e) 400 else Propagates e
     end).
Proof.
  intros Hv. cbn [validate_each]. rewrite Hv.
  destruct custom_error_handler; [reflexivity|]. by destruct e.
Qed.

End SessionFacts.

(** When every parameter validates, the handler is called with the
    keyword arguments [nested_func] was called with, whatever was
    validated. *)
Lemma session_success {R} exc_str handler (f : dict -> R) ps request kwargs :
  Forall (succeeds (request_inputs request kwargs)) ps ->
  nested_func exc_str handler f ps request kwargs
  = (logs (request_inputs request kwargs) ps, Returns (f kwargs)).
Proof.
  intros Hok. unfold nested_func.
  rewrite <- (app_nil_r ps) at 1.
  rewrite validate_each_prefix by assumption.
  cbn. by rewrite app_nil_r.
Qed.

(** C8. The session stops at the first parameter that fails: when the
    parameters before it validate and it raises [e], the log ends with its
    own calls (the parameters after it are not looked at) and the answer is
    made from [e] alone.  With a custom error handler the answer is what the
    handler returns for [e], whatever kind of error [e] is; without one, a
    missing-input or validation error (type mismatch or semantic failure)
    is answered by the payload [{"error": str(e)}] with status 400. *)
Theorem first_failure_aborts {R} exc_str (handler : option (exn -> R))
    (f : dict -> R) before failing after request kwargs e :
  let inputs := request_inputs request kwargs in
  let session :=
    nested_func exc_str handler f (before ++ failing :: after) request kwargs in
  Forall (succeeds inputs) before ->
  (validate failing inputs).2 = Raise e ->
  session.1 = logs inputs before ++ (validate failing inputs).1
  /\ (forall h, handler = Some h -> session.2 = Returns (h e))
  /\ (handler = None -> request_error e = true ->
      session.2 = ErrorPayload (exc_str e) 400).
Proof.
  cbn zeta. intros Hok He. unfold nested_func.
  rewrite validate_each_prefix by assumption.
  destruct (validate failing _) as [log r] eqn:Hv. cbn in He. subst r.
  rewrite (validate_each_raise _ _ _ _ _ _ _ _ _ _ Hv). cbn [fst snd].
  repeat split.
  - by intros h ->.
  - by intros -> ->.
Qed.

Lemma first_failure_aborts_witness :
  let session (handler : option (exn -> string)) :=
    nested_func Test.exc_str handler (fun _ => "Hello World!")
      ([Test.id; Test.username] ++ Test.age :: [Test.nicknames; Test.is_admin])
      (Test.request 15 []) Test.route in
  (session (Some Test.exc_str)).2 = Returns "must be larger than minimum"
  /\ (session None).2 = ErrorPayload "must be larger than minimum" 400.
Proof.
  cbn zeta. split.
  - refine (proj1 (proj2 (first_failure_aborts Test.exc_str (Some Test.exc_str) _
      [Test.id; Test.username] Test.age [Test.nicknames; Test.is_admin]
      (Test.request 15 []) Test.route
      (ValidationError "must be larger than minimum" "age" (TCls c_int)) _ _))
      _ eq_refl); [|reflexivity].
    repeat constructor; eexists; reflexivity.
  - refine (proj2 (proj2 (first_failure_aborts Test.exc_str None _
      [Test.id; Test.username] Test.age [Test.nicknames; Test.is_admin]
      (Test.request 15 []) Test.route
      (ValidationError "must be larger than minimum" "age" (TCls c_int)) _ _))
      eq_refl eq_refl); [|reflexivity].
    repeat constructor; eexists; reflexivity.
Defined.

(** C1. Where the property fails: the module's own handler [hello], called for
    route argument [id = 3], a body that holds every body parameter, and no
    query string.  Every parameter validates ([username] to ["alice"],
    [is_admin] to its default [False]), the validated values are stored in
    [validated_inputs], and the handler is called with the route arguments
    alone: none of the validated body and query values is among its
    keyword arguments.  The handler here answers with the keyword arguments
    it was called with. *)
Theorem handler_gets_route_arguments_only :
  let inputs := request_inputs (Test.request 30 []) Test.route in
  let session :=
    nested_func Test.exc_str None (fun kwargs : dict => kwargs) Test.hello
      (Test.request 30 []) Test.route in
  (validate Test.username inputs).2 = Ok (VStr "alice")
  /\ (validate Test.is_admin inputs).2 = Ok (VBool false)
  /\ session.2 = Returns Test.route
  /\ Test.route !! "username" = None
  /\ Test.route !! "is_admin" = None.
Proof. cbn zeta. repeat split; reflexivity. Qed.

(** A list-typed parameter whose raw value is no list and is not made one
    by [convert]: the validator is not invoked; the type mismatch is raised
    if the raw value can be iterated over, and the interpreter's
    [TypeError] if it cannot. *)
Lemma list_parameter_without_list p inputs elt user_input :
  raw_value p inputs = Some user_input ->
  Param.annotation p = TList elt ->
  let b := Param.default p in
  is_list (Binding.convert b user_input [elt]) = false ->
  validate p inputs
  = ([Converted (Binding.class b) user_input [elt]],
     Raise (match iter user_input with
            | Some _ => mismatch p
            | None => not_iterable user_input
            end)).
Proof.
  intros Hraw Ht. cbn zeta. intros Hlist.
  rewrite (validate_raw_value _ _ _ Hraw).
  rewrite check_steps by (rewrite Ht; discriminate).
  rewrite Ht, prepare_list.
  cbn [list_checks user_inputs expected_input_types args].
  destruct (iter user_input); [|reflexivity].
  rewrite Hlist. by rewrite andb_false_r.
Qed.

(** C6. Where the property fails: [nicknames: List[str] = Json()] and a body
    that gives the integer 5 for it.  The value is no list and [convert]
    leaves it as it is; line 118 then iterates over it and the [TypeError]
    of the interpreter leaves [validate], before the test of lines 121-123
    that would have made the type mismatch.  Without a custom error
    handler the exception leaves [nested_func] too. *)
Theorem non_iterable_for_list_raises_type_error :
  let inputs : gmap delivery dict := {[ Json := {[ "nicknames" := VInt 5 ]} ]} in
  validate Test.nicknames inputs
  = ([Converted Json (VInt 5) [TCls c_str]],
     Raise (TypeError "'int' object is not iterable"))
  /\ validate Test.nicknames inputs
     <> ([Converted Json (VInt 5) [TCls c_str]], Raise (mismatch Test.nicknames))
  /\ (validate_each Test.exc_str None (fun kwargs : dict => kwargs) inputs ∅
        [Test.nicknames] ∅).2
     = Propagates (TypeError "'int' object is not iterable").
Proof. cbn zeta. split; [reflexivity|]. split; [discriminate|reflexivity]. Qed.

(** ** Unions with list members *)

(** C3, as stated, fails.  For [Union[List[int], List[str]]] and an empty
    list, the list member [List[int]] matches (every element of the empty
    list is an [int]), yet the checks are prepared for [List[str]], the
    last member that matches.  And where nothing is elected, the candidates
    are all the members of the union, the null marker among them. *)
Lemma election_takes_the_last_list_member :
  let declared := TUnion [TList (TCls c_int); TList (TCls c_str)] in
  matches (VList []) (TList (TCls c_int)) = true
  /\ prepare declared (VList []) <> list_checks (TList (TCls c_int)) (VList [])
  /\ prepare declared (VList []) = list_checks (TList (TCls c_str)) (VList [])
  /\ expected_input_types
       (prepare (TUnion [TList (TCls c_str); TCls c_int; TCls c_NoneType]) (VStr "x"))
     = [TList (TCls c_str); TCls c_int; TCls c_NoneType].
Proof. cbn zeta. split; [reflexivity|]. split; [discriminate|]. split; reflexivity. Qed.

(** C3, amended.  For a parameter declared as a union and its raw value
    (supplied, or put in from the default): if some list member of the union matches the value (the
    value is a list and every element has the member's element class), the
    checks are prepared for the last such member alone: its element type is
    the only candidate, the value [convert] returns must be a list or the
    type mismatch is raised for the declared union, and the binding's
    validator is given that list, its [ValueError] reported for the list
    member.  If no list member matches, the checks keep the declared union:
    all its members are the candidates and no list is required. *)
Theorem union_election p inputs members user_input :
  raw_value p inputs = Some user_input ->
  Param.annotation p = TUnion members ->
  let b := Param.default p in
  let n := prepare (TUnion members) user_input in
  match elected members user_input with
  | Some member =>
      let converted := Binding.convert b user_input (args member) in
      let conversion := Converted (Binding.class b) user_input (args member) in
      n = Prepared member (args member) (str member) user_input
      /\ list_shaped n = true
      /\ validate p inputs
         = if is_list converted
           then ([conversion; Validated (Binding.class b) converted],
                 semantic b (Param.name p) member converted)
           else ([conversion], Raise (mismatch p))
  | None =>
      n = Prepared (TUnion members) members (str (TUnion members)) (VList [user_input])
      /\ list_shaped n = false
  end.
Proof.
  intros Hraw Ht. cbn zeta.
  rewrite prepare_union.
  destruct (elected members user_input) as [member|] eqn:He; [|split; reflexivity].
  destruct (elected_is_list _ _ _ He) as (elt & items & -> & _ & -> & Hall).
  split; [reflexivity|]. split; [reflexivity|].
  rewrite (validate_raw_value _ _ _ Hraw).
  rewrite check_steps by (rewrite Ht; discriminate).
  rewrite Ht, prepare_union, He.
  cbn [list_checks user_inputs expected_input_types expected_input_type iter args].
  rewrite Hall. reflexivity.
Qed.

Lemma union_election_witness :
  let p := Param.Make "ids" (TUnion [TList (TCls c_str); TCls c_int])
             (Test.binding Json VNone None None) in
  let supplied := VList [VStr "al"; VStr "bo"] in
  validate p {[ Json := {[ "ids" := supplied ]} ]}
  = ([Converted Json supplied [TCls c_str]; Validated Json supplied], Ok supplied).
Proof.
  cbn zeta.
  refine (eq_trans (proj2 (proj2 (union_election
    (Param.Make "ids" (TUnion [TList (TCls c_str); TCls c_int])
       (Test.binding Json VNone None None))
    {[ Json := {[ "ids" := VList [VStr "al"; VStr "bo"] ]} ]}
    [TList (TCls c_str); TCls c_int] (VList [VStr "al"; VStr "bo"]) _ _))) _);
    reflexivity.
Defined.

(** ** The null marker among the candidates *)

(** C7, as stated, fails.  For [Union[int, str, None]] and the supplied
    integer 5, [convert] is called with all three members as candidates: the
    null marker has not been removed, and it is one of the candidates of the
    type check. *)
Lemma null_marker_stays_a_candidate :
  let declared := TUnion [TCls c_int; TCls c_str; TCls c_NoneType] in
  validate (Param.Make "age" declared (Test.binding Json VNone None None))
    {[ Json := {[ "age" := VInt 5 ]} ]}
  = ([Converted Json (VInt 5) [TCls c_int; TCls c_str; TCls c_NoneType];
      Validated Json (VInt 5)],
     Ok (VInt 5))
  /\ type_in c_NoneType (expected_input_types (prepare declared (VInt 5))) = true.
Proof. split; reflexivity. Qed.

(** C7, amended.  For every declared annotation the prepared checks have
    one of three shapes: plain (the declared type its own single candidate),
    list (the element type of one list type the single candidate, the
    checked elements those of the value) or union (the members of the
    declared union the candidates).  The null marker of a union is not
    removed: unless a list member is elected, the candidates are the
    union's members as declared.  They are the candidates every call of
    [convert] is given, and no such call is given [None] for its value. *)
Theorem null_marker_is_kept p inputs :
  let declared := Param.annotation p in
  (forall user_input,
     let n := prepare declared user_input in
     n = plain_checks declared user_input /\ has_args declared = false
     \/ (exists elt, n = list_checks (TList elt) user_input
                     /\ (declared = TList elt
                         \/ exists members, declared = TUnion members
                                            /\ TList elt ∈ members))
     \/ (exists members, declared = TUnion members
                         /\ n = union_checks declared user_input))
  /\ (forall members user_input,
        declared = TUnion members -> elected members user_input = None ->
        expected_input_types (prepare declared user_input) = members)
  /\ (forall log r c v candidates,
        validate p inputs = (log, r) -> Converted c v candidates ∈ log ->
        v <> VNone /\ candidates = expected_input_types (prepare declared v)).
Proof.
  cbn zeta. repeat apply conj.
  - intros user_input.
    destruct (Param.annotation p) as [c| |members|elt].
    + left. by split.
    + left. by split.
    + right. rewrite prepare_union.
      destruct (elected members user_input) as [member|] eqn:He.
      * destruct (elected_is_list _ _ _ He) as (elt & items & -> & Hin & -> & _).
        left. exists elt. split; [reflexivity|]. right. eauto.
      * right. eauto.
    + right. left. exists elt. split; [reflexivity|]. by left.
  - intros members user_input -> He. by rewrite prepare_union, He.
  - intros log r c v candidates Hv Hin.
    by destruct (converted_is_not_none _ _ _ _ _ _ _ Hv Hin) as (? & _ & ?).
Qed.

Lemma null_marker_is_kept_witness :
  expected_input_types
    (prepare (TUnion [TCls c_int; TCls c_str; TCls c_NoneType]) (VInt 5))
  = [TCls c_int; TCls c_str; TCls c_NoneType].
Proof.
  exact (proj1 (proj2 (null_marker_is_kept
    (Param.Make "age" (TUnion [TCls c_int; TCls c_str; TCls c_NoneType])
       (Test.binding Json VNone None None)) ∅))
    [TCls c_int; TCls c_str; TCls c_NoneType] (VInt 5) eq_refl eq_refl).
Defined.

(** ** The type check *)

(** C2, as stated, fails, in two ways.  The elements that are checked are
    those of the value as supplied, not of the value [convert] returned: for
    [is_admin: bool = Query(False)] and the query string [is_admin=true], the
    conversion returns [True], which conforms, and the type mismatch is
    raised all the same.  And the error carries nothing of the received
    value: a string and a list given for [age: int] raise the same error. *)
Lemma check_is_made_on_the_supplied_value :
  let b := Param.default Test.is_admin in
  let n := prepare (TCls c_bool) (VStr "true") in
  Binding.convert b (VStr "true") (expected_input_types n) = VBool true
  /\ conforms n (VBool true) = true
  /\ validate Test.is_admin {[ Query := {[ "is_admin" := VStr "true" ]} ]}
     = ([Converted Query (VStr "true") [TCls c_bool]],
        Raise (ValidationError "must be type 'bool'" "is_admin" (TCls c_bool)))
  /\ (validate Test.age {[ Json := {[ "age" := VStr "x" ]} ]}).2
     = Raise (ValidationError "must be type 'int'" "age" (TCls c_int))
  /\ (validate Test.age {[ Json := {[ "age" := VList [] ]} ]}).2
     = Raise (ValidationError "must be type 'int'" "age" (TCls c_int)).
Proof. cbn zeta. repeat (split; [reflexivity|]). reflexivity. Qed.

(** C2, amended.  For a parameter whose raw value is present (or put in
    from the default) and whose declared type is not [Any], with the checks
    prepared for the raw value and [converted] the value [convert] returns:
    - when the checks are list-shaped, [converted] must be a list: if it is
      not (and the raw value can be iterated over), the type mismatch is
      raised;
    - when [convert] returns the raw value as it is, the type mismatch is
      raised exactly if the value does not conform, and otherwise the
      binding's validator is invoked on it;
    - a [ValidationError] raised before the validator is invoked is the
      type mismatch: its message names the declared type as written, and
      it carries the parameter's name and the declared type, whatever was
      elected, and nothing of the received value. *)
Theorem type_check_after_conversion p inputs user_input :
  raw_value p inputs = Some user_input ->
  Param.annotation p <> TAny ->
  let b := Param.default p in
  let n := prepare (Param.annotation p) user_input in
  let converted := Binding.convert b user_input (expected_input_types n) in
  let conversion := Converted (Binding.class b) user_input (expected_input_types n) in
  (list_shaped n = true -> is_list converted = false -> iter user_input <> None ->
   validate p inputs = ([conversion], Raise (mismatch p)))
  /\ (converted = user_input ->
      (list_shaped n = true -> iter user_input <> None) ->
      validate p inputs
      = if conforms n converted
        then ([conversion; Validated (Binding.class b) converted],
              semantic b (Param.name p) (expected_input_type n) converted)
        else ([conversion], Raise (mismatch p)))
  /\ (forall log message name type,
        validate p inputs = (log, Raise (ValidationError message name type)) ->
        Validated (Binding.class b) converted ∉ log ->
        message = ("must be type '" ++ type_name (Param.annotation p) ++ "'")%string
        /\ name = Param.name p /\ type = Param.annotation p).
Proof.
  intros Hraw Hany. cbn zeta.
  rewrite (validate_raw_value _ _ _ Hraw).
  repeat apply conj.
  - intros Hshape Hlist Hiter.
    rewrite check_steps by assumption.
    rewrite user_inputs_prepare, Hshape, Hlist.
    destruct (iter user_input); [|contradiction].
    by rewrite andb_false_r.
  - intros Hsame Hiter.
    rewrite check_steps by assumption.
    rewrite user_inputs_prepare, Hsame. unfold conforms.
    destruct (list_shaped _) eqn:Hshape.
    + specialize (Hiter eq_refl).
      destruct user_input; cbn [iter is_list negb orb]; try contradiction;
        try (by rewrite andb_false_r).
      by rewrite andb_true_r.
    + cbn [iter all_type_in forallb negb orb]. by rewrite !andb_true_r.
  - intros log message name type Hc Hnot.
    apply check_log in Hc.
    destruct Hc as [[_ Ht]|[(_ & _ & [Hr|Hr])|(-> & _)]].
    + contradiction.
    + by inversion Hr.
    + discriminate.
    + exfalso. apply Hnot. apply elem_of_cons. right. apply list_elem_of_singleton.
      reflexivity.
Qed.

Lemma type_check_after_conversion_witness :
  validate Test.nicknames {[ Json := {[ "nicknames" := VStr "al" ]} ]}
  = ([Converted Json (VStr "al") [TCls c_str]], Raise (mismatch Test.nicknames))
  /\ validate Test.age {[ Json := {[ "age" := VStr "x" ]} ]}
     = ([Converted Json (VStr "x") [TCls c_int]], Raise (mismatch Test.age)).
Proof.
  split.
  - refine (proj1 (type_check_after_conversion Test.nicknames
      {[ Json := {[ "nicknames" := VStr "al" ]} ]} (VStr "al") _ _) _ _ _);
      try reflexivity; discriminate.
  - refine (eq_trans (proj1 (proj2 (type_check_after_conversion Test.age
      {[ Json := {[ "age" := VStr "x" ]} ]} (VStr "x") _ _)) _ _) _);
      try reflexivity; discriminate.
Defined.

(** * Further properties of [validate] and [nested_func] *)

(** ** The sources of a request *)

(** The bundle of lines 22-28 has the five delivery classes for its keys
    and nothing else. *)
Lemma request_inputs_lookup request kwargs d :
  request_inputs request kwargs !! d =
  match d with
  | Route => Some kwargs
  | Json => Some (match Request.json request with Some body => body | None => ∅ end)
  | Query => Some (to_dict (Request.args request))
  | Form => Some (to_dict (Request.form request))
  | File => Some (to_dict (Request.files request))
  | NotDelivery _ => None
  end.
Proof. unfold request_inputs. destruct d; by simplify_map_eq. Qed.

(** Without a raw value to go on with, [validate] ends before any call to
    the binding. *)
Lemma validate_without_raw_value p inputs :
  raw_value p inputs = None ->
  validate p inputs =
  ([], match inputs !! Binding.class (Param.default p) with
       | None => Raise (InvalidParameterTypeError (Binding.class (Param.default p)))
       | Some _ =>
           if null_in_args (Param.annotation p) then Ok VNone
           else Raise (MissingInputError (Param.name p)
                         (Binding.class (Param.default p)))
       end).
Proof.
  unfold raw_value, validate, null_in_args.
  destruct (inputs !! _) as [source|]; [|reflexivity].
  destruct (get source (Param.name p)); try discriminate.
  destruct (Binding.default (Param.default p)); try discriminate.
  cbn [is_None negb]. by destruct (_ && _).
Qed.

(** A check that logs nothing is the check of an [Any], which returns. *)
Lemma check_silent p user_input r :
  check p user_input = ([], r) -> r = Ok user_input.
Proof.
  intros Hc. destruct (check_log _ _ _ _ Hc) as [[_ Ht]|[(Hl & _)|(Hl & _)]];
    try discriminate.
  rewrite check_any in Hc by assumption. congruence.
Qed.

(** X1. For the bundle [nested_func] builds, [validate] raises
    [InvalidParameterTypeError] before any call to the binding exactly for a
    parameter whose declared default is not an object of one of the five
    delivery classes, whatever the request holds. *)
Theorem unknown_source_exactly p request kwargs :
  validate p (request_inputs request kwargs)
  = ([], Raise (InvalidParameterTypeError (Binding.class (Param.default p))))
  <-> exists n, Binding.class (Param.default p) = NotDelivery n.
Proof.
  split.
  - intros Hv.
    destruct (raw_value p (request_inputs request kwargs)) as [u|] eqn:Hraw.
    + rewrite (validate_raw_value _ _ _ Hraw) in Hv.
      apply check_silent in Hv. discriminate.
    + rewrite (validate_without_raw_value _ _ Hraw) in Hv.
      rewrite request_inputs_lookup in Hv.
      destruct (Binding.class (Param.default p)); eauto;
        by destruct (null_in_args _).
  - intros [n Hn]. apply validate_unknown_source.
    by rewrite request_inputs_lookup, Hn.
Qed.

(** X10. [validate] raises [MissingInputError] before any call to the
    binding exactly when the parameter's source is known and holds nothing
    (or [None]) under its name, the binding has no default other than
    [None], and the null marker is not among the arguments of the declared
    type; the error carries the parameter's name and the class of its
    binding. *)
Theorem missing_input_exactly p inputs n s :
  validate p inputs = ([], Raise (MissingInputError n s))
  <-> n = Param.name p /\ s = Binding.class (Param.default p)
      /\ (exists source, inputs !! s = Some source /\ get source n = VNone)
      /\ Binding.default (Param.default p) = VNone
      /\ null_in_args (Param.annotation p) = false.
Proof.
  split.
  - intros Hv.
    destruct (raw_value p inputs) as [u|] eqn:Hraw.
    + rewrite (validate_raw_value _ _ _ Hraw) in Hv.
      apply check_silent in Hv. discriminate.
    + rewrite (validate_without_raw_value _ _ Hraw) in Hv.
      unfold raw_value in Hraw.
      destruct (inputs !! Binding.class (Param.default p)) as [source|] eqn:Hs;
        [|discriminate].
      destruct (null_in_args _); [discriminate|].
      injection Hv as <- <-. rewrite Hs.
      destruct (get source (Param.name p)) eqn:Hg; try discriminate.
      destruct (Binding.default (Param.default p)); try discriminate.
      eauto 10.
  - intros (-> & -> & (source & Hs & Hg) & Hd & Hnull).
    rewrite (validate_absent _ _ _ Hs Hg), Hd, Hnull. reflexivity.
Qed.

(** ** Parameters declared [Any] *)

(** X2. For a parameter declared [Any] whose source is known, the binding is
    never called: a supplied value (or the default in its place) is returned
    as it is, with neither conversion nor type check nor the binding's
    constraints applied; and an absent one without default is a missing
    input, [Any] never being optional. *)
Theorem any_skips_the_binding p inputs source :
  Param.annotation p = TAny ->
  inputs !! Binding.class (Param.default p) = Some source ->
  validate p inputs =
  ([], match raw_value p inputs with
       | Some user_input => Ok user_input
       | None => Raise (MissingInputError (Param.name p)
                          (Binding.class (Param.default p)))
       end).
Proof.
  intros Ht Hs.
  destruct (raw_value p inputs) as [u|] eqn:Hraw.
  - rewrite (validate_raw_value _ _ _ Hraw). by apply check_any.
  - rewrite (validate_without_raw_value _ _ Hraw), Hs, Ht. reflexivity.
Qed.

Lemma any_skips_the_binding_witness :
  validate (Param.Make "age" TAny (Test.binding Json VNone (Some 18%Z) (Some 99%Z)))
    {[ Json := {[ "age" := VInt 3 ]} ]}
  = ([], Ok (VInt 3)).
Proof.
  exact (any_skips_the_binding
    (Param.Make "age" TAny (Test.binding Json VNone (Some 18%Z) (Some 99%Z)))
    {[ Json := {[ "age" := VInt 3 ]} ]} {[ "age" := VInt 3 ]} eq_refl eq_refl).
Defined.

(** ** Defaults and sources *)

(** X3. A parameter that is absent from its source and whose binding has a
    default other than [None] is validated, log and result, exactly as if
    the default had been supplied under its name: the default is converted,
    type-checked and given to the binding's validator like any input. *)
Theorem default_is_validated_as_supplied p inputs source d :
  inputs !! Binding.class (Param.default p) = Some source ->
  get source (Param.name p) = VNone ->
  Binding.default (Param.default p) = d ->
  d <> VNone ->
  validate p inputs
  = validate p (<[Binding.class (Param.default p) :=
                    <[Param.name p := d]> source]> inputs).
Proof.
  intros Hs Hg Hd Hn.
  rewrite (validate_absent _ _ _ Hs Hg), Hd.
  rewrite (validate_present p _ (<[Param.name p := d]> source) d);
    [|apply lookup_insert_eq|apply lookup_insert_eq|assumption].
  by destruct d.
Qed.

Lemma default_is_validated_as_supplied_witness :
  validate
    (Param.Make "age" (TCls c_int) (Test.binding Query (VStr "18") None None))
    {[ Query := ∅ ]}
  = ([Converted Query (VStr "18") [TCls c_int]],
     Raise (ValidationError "must be type 'int'" "age" (TCls c_int))).
Proof.
  refine (eq_trans (default_is_validated_as_supplied
    (Param.Make "age" (TCls c_int) (Test.binding Query (VStr "18") None None))
    {[ Query := ∅ ]} ∅ (VStr "18") _ _ _ _) _); try reflexivity.
  discriminate.
Defined.

(** X4. A supplied value other than [None] is validated without regard to
    the default: two bindings that differ in their default only give the
    same log and result. *)
Theorem supplied_value_ignores_default name t c d d' convert validate_ inputs source v :
  inputs !! c = Some source ->
  source !! name = Some v ->
  v <> VNone ->
  validate (Param.Make name t (Binding.Make c d convert validate_)) inputs
  = validate (Param.Make name t (Binding.Make c d' convert validate_)) inputs.
Proof.
  intros Hs Hv Hn.
  rewrite (validate_present _ _ source v), (validate_present _ _ source v);
    try assumption.
  reflexivity.
Qed.

Lemma supplied_value_ignores_default_witness :
  validate Test.is_admin {[ Query := {[ "is_admin" := VBool true ]} ]}
  = validate
      (Param.Make "is_admin" (TCls c_bool) (Test.binding Query VNone None None))
      {[ Query := {[ "is_admin" := VBool true ]} ]}.
Proof.
  apply (supplied_value_ignores_default _ _ _ _ _ _ _ _
           {[ "is_admin" := VBool true ]} (VBool true));
    [reflexivity|reflexivity|discriminate].
Defined.

(** [validate] reads nothing but the entry of the parameter's name in the
    source of the parameter's binding. *)
Lemma validate_reads p inputs inputs' :
  reads p inputs = reads p inputs' ->
  validate p inputs = validate p inputs'.
Proof.
  unfold reads, validate.
  destruct (inputs !! _) as [source|], (inputs' !! _) as [source'|];
    cbn; try discriminate; [|reflexivity].
  by intros [= ->].
Qed.

(** X5. A session depends on the request only through what the declared
    parameters read: two bundles that hold the same entry (or none) for
    each declared parameter, under its name in its source, give the same
    log and the same answer, whatever else they hold; inputs the handler
    does not declare are ignored, not rejected. *)
Theorem undeclared_inputs_are_ignored {R} exc_str (handler : option (exn -> R))
    (f : dict -> R) inputs inputs' kwargs ps validated :
  Forall (fun p => reads p inputs = reads p inputs') ps ->
  validate_each exc_str handler f inputs kwargs ps validated
  = validate_each exc_str handler f inputs' kwargs ps validated.
Proof.
  intros Hall. revert validated.
  induction Hall as [|p ps Hp _ IH]; intros validated; [reflexivity|].
  cbn [validate_each]. rewrite (validate_reads _ _ _ Hp).
  destruct handler, (validate p inputs') as [log [v|e]]; try reflexivity;
    by rewrite IH.
Qed.

Lemma undeclared_inputs_are_ignored_witness :
  nested_func Test.exc_str None (fun kwargs : dict => kwargs) Test.hello
    (Request.Make (Some (<["debug" := VBool true]> Test.body))
       {[ "page" := [VStr "2"] ]} ∅ ∅) Test.route
  = nested_func Test.exc_str None (fun kwargs : dict => kwargs) Test.hello
      (Request.Make (Some Test.body) ∅ ∅ ∅) Test.route.
Proof.
  apply (undeclared_inputs_are_ignored Test.exc_str None).
  repeat constructor.
Defined.

(** ** The type check and the binding *)

Lemma validate_by_raw_value p inputs :
  validate p inputs =
  match raw_value p inputs with
  | Some user_input => check p user_input
  | None =>
      ([], match inputs !! Binding.class (Param.default p) with
           | None => Raise (InvalidParameterTypeError (Binding.class (Param.default p)))
           | Some _ =>
               if null_in_args (Param.annotation p) then Ok VNone
               else Raise (MissingInputError (Param.name p)
                             (Binding.class (Param.default p)))
           end)
  end.
Proof.
  destruct (raw_value p inputs) eqn:Hraw.
  - by apply validate_raw_value.
  - by apply validate_without_raw_value.
Qed.

(** A check that has invoked the validator has passed the type check. *)
Lemma check_validated p user_input c v :
  Validated c v ∈ (check p user_input).1 ->
  let b := Param.default p in
  let n := prepare (Param.annotation p) user_input in
  let converted := Binding.convert b user_input (expected_input_types n) in
  Param.annotation p <> TAny /\ v = converted
  /\ (exists checked,
        iter (user_inputs n) = Some checked
        /\ all_type_in (expected_input_types n) checked = true)
  /\ (list_shaped n = true -> is_list converted = true)
  /\ check p user_input
     = ([Converted (Binding.class b) user_input (expected_input_types n);
         Validated (Binding.class b) converted],
        semantic b (Param.name p) (expected_input_type n) converted).
Proof.
  cbn zeta. intros Hin.
  assert (Param.annotation p <> TAny) as Hany.
  { intros Ht. rewrite check_any in Hin by assumption.
    by apply not_elem_of_nil in Hin. }
  rewrite check_steps in Hin |- * by assumption.
  destruct (iter _) as [checked|].
  - destruct (all_type_in _ checked) eqn:Hall; cbn [andb] in *.
    + destruct (list_shaped _) eqn:Hshape; cbn [negb orb] in *.
      * destruct (is_list _) eqn:Hlist; cbn [fst] in Hin.
        -- apply elem_of_cons in Hin as [Hin|Hin]; [discriminate|].
           apply list_elem_of_singleton in Hin. injection Hin as _ ->.
           eauto 10.
        -- apply list_elem_of_singleton in Hin. discriminate.
      * cbn [fst] in Hin.
        apply elem_of_cons in Hin as [Hin|Hin]; [discriminate|].
        apply list_elem_of_singleton in Hin. injection Hin as _ ->.
        repeat split; eauto. discriminate.
    + apply list_elem_of_singleton in Hin. discriminate.
  - apply list_elem_of_singleton in Hin. discriminate.
Qed.

(** X6. The binding's validator is invoked only after the type check has
    passed, and only on the value [convert] returned: whenever the log of
    [validate] holds an invocation on [v], there is a raw value (supplied or
    default) whose checked elements all have a class among the candidates,
    [v] is what [convert] made of it, and [v] is a list if the checks are
    list-shaped. *)
Theorem validator_only_after_type_check p inputs c v :
  Validated c v ∈ (validate p inputs).1 ->
  exists user_input checked,
    let n := prepare (Param.annotation p) user_input in
    raw_value p inputs = Some user_input
    /\ v = Binding.convert (Param.default p) user_input (expected_input_types n)
    /\ iter (user_inputs n) = Some checked
    /\ all_type_in (expected_input_types n) checked = true
    /\ (list_shaped n = true -> is_list v = true).
Proof.
  rewrite validate_by_raw_value.
  destruct (raw_value p inputs) as [u|]; cbn [fst].
  - intros Hin.
    destruct (check_validated _ _ _ _ Hin) as (_ & -> & (checked & Hi & Hall) & Hl & _).
    exists u, checked. cbn zeta. eauto 10.
  - intros Hin. by apply not_elem_of_nil in Hin.
Qed.

Lemma validator_only_after_type_check_witness :
  exists user_input checked,
    let n := prepare (Param.annotation Test.age) user_input in
    raw_value Test.age {[ Json := {[ "age" := VInt 15 ]} ]} = Some user_input
    /\ VInt 15 = Binding.convert (Param.default Test.age) user_input
                   (expected_input_types n)
    /\ iter (user_inputs n) = Some checked
    /\ all_type_in (expected_input_types n) checked = true
    /\ (list_shaped n = true -> is_list (VInt 15) = true).
Proof.
  apply (validator_only_after_type_check Test.age _ Json).
  apply list_elem_of_In. right. left. reflexivity.
Defined.

(** X11. The three ways [validate] returns a value: [None] for an absent
    parameter without default whose declared type has the null marker among
    its arguments; the raw value itself for a parameter declared [Any]; and
    otherwise the value [convert] returned, after the binding's validator
    has been invoked on it and has accepted it.  In the first two the
    binding is not called. *)
Theorem success_means_accepted p inputs log v :
  validate p inputs = (log, Ok v) ->
  (raw_value p inputs = None /\ v = VNone /\ log = []
   /\ null_in_args (Param.annotation p) = true)
  \/ (raw_value p inputs = Some v /\ Param.annotation p = TAny /\ log = [])
  \/ (exists user_input,
        let b := Param.default p in
        let n := prepare (Param.annotation p) user_input in
        raw_value p inputs = Some user_input
        /\ Param.annotation p <> TAny
        /\ v = Binding.convert b user_input (expected_input_types n)
        /\ log = [Converted (Binding.class b) user_input (expected_input_types n);
                  Validated (Binding.class b) v]
        /\ Binding.validate b v = None).
Proof.
  rewrite validate_by_raw_value.
  destruct (raw_value p inputs) as [u|].
  - intros Hc. destruct (check_log _ _ _ _ Hc) as [[-> Ht]|[(_ & _ & [?|?])|(-> & Hany & Hr)]];
      try discriminate.
    + right. left. rewrite check_any in Hc by assumption.
      injection Hc as <-. auto.
    + right. right. exists u. cbn zeta. unfold semantic in Hr.
      destruct (Binding.validate _ _) as [[]|] eqn:Hb; try discriminate.
      injection Hr as ->. auto 10.
  - intros Hv. left.
    destruct (inputs !! _); [|discriminate].
    destruct (null_in_args _); [|discriminate].
    injection Hv as <- <-. auto.
Qed.

Lemma success_means_accepted_witness :
  (raw_value Test.age {[ Json := {[ "age" := VInt 30 ]} ]} = None /\ VInt 30 = VNone
   /\ [Converted Json (VInt 30) [TCls c_int]; Validated Json (VInt 30)] = []
   /\ null_in_args (Param.annotation Test.age) = true)
  \/ (raw_value Test.age {[ Json := {[ "age" := VInt 30 ]} ]} = Some (VInt 30)
      /\ Param.annotation Test.age = TAny
      /\ [Converted Json (VInt 30) [TCls c_int]; Validated Json (VInt 30)] = [])
  \/ (exists user_input,
        let b := Param.default Test.age in
        let n := prepare (Param.annotation Test.age) user_input in
        raw_value Test.age {[ Json := {[ "age" := VInt 30 ]} ]} = Some user_input
        /\ Param.annotation Test.age <> TAny
        /\ VInt 30 = Binding.convert b user_input (expected_input_types n)
        /\ [Converted Json (VInt 30) [TCls c_int]; Validated Json (VInt 30)]
           = [Converted (Binding.class b) user_input (expected_input_types n);
              Validated (Binding.class b) (VInt 30)]
        /\ Binding.validate b (VInt 30) = None).
Proof.
  apply (success_means_accepted Test.age {[ Json := {[ "age" := VInt 30 ]} ]}).
  reflexivity.
Defined.

(** A check whose prepared checks are not list-shaped looks at the class of
    the raw value only. *)
Lemma check_scalar p user_input :
  Param.annotation p <> TAny ->
  let b := Param.default p in
  let n := prepare (Param.annotation p) user_input in
  let converted := Binding.convert b user_input (expected_input_types n) in
  let conversion := Converted (Binding.class b) user_input (expected_input_types n) in
  list_shaped n = false ->
  check p user_input =
  if type_in (type_of user_input) (expected_input_types n)
  then ([conversion; Validated (Binding.class b) converted],
        semantic b (Param.name p) (expected_input_type n) converted)
  else ([conversion], Raise (mismatch p)).
Proof.
  intros Hany. cbn zeta. intros Hshape.
  rewrite check_steps by assumption.
  rewrite user_inputs_prepare, Hshape.
  cbn [iter all_type_in forallb negb orb]. by rewrite !andb_true_r.
Qed.

(** X8. A parameter declared with a class [c] passes the type check exactly
    when the raw value is of class [c] itself (a [bool] does not pass for
    [int]): the class of what [convert] returns plays no part.  On a raw
    value of another class the type mismatch is raised and the validator is
    not invoked; on a raw value of class [c] the validator is given whatever
    [convert] returned. *)
Theorem plain_class_is_exact p inputs c user_input :
  Param.annotation p = TCls c ->
  raw_value p inputs = Some user_input ->
  let b := Param.default p in
  let converted := Binding.convert b user_input [TCls c] in
  let conversion := Converted (Binding.class b) user_input [TCls c] in
  validate p inputs =
  if bool_decide (type_of user_input = c)
  then ([conversion; Validated (Binding.class b) converted],
        semantic b (Param.name p) (TCls c) converted)
  else ([conversion], Raise (mismatch p)).
Proof.
  intros Ht Hraw. cbn zeta.
  rewrite (validate_raw_value _ _ _ Hraw).
  rewrite check_scalar; rewrite Ht; try reflexivity; try discriminate.
  rewrite prepare_cls. cbn [plain_checks expected_input_types expected_input_type type_in existsb].
  by rewrite orb_false_r.
Qed.

Lemma plain_class_is_exact_witness :
  validate Test.age {[ Json := {[ "age" := VBool true ]} ]}
  = ([Converted Json (VBool true) [TCls c_int]], Raise (mismatch Test.age)).
Proof.
  exact (plain_class_is_exact Test.age {[ Json := {[ "age" := VBool true ]} ]}
           c_int (VBool true) eq_refl eq_refl).
Defined.

(** X9. A parameter declared as a union, for a raw value that is not a
    list: nothing is elected, and the type check passes exactly when the
    class of the raw value is itself a member of the union; the validator is
    then given whatever [convert] returned for the members of the union, and
    its [ValueError] is reported for the declared union. *)
Theorem union_of_scalar_value p inputs members user_input :
  Param.annotation p = TUnion members ->
  raw_value p inputs = Some user_input ->
  is_list user_input = false ->
  let b := Param.default p in
  let converted := Binding.convert b user_input members in
  let conversion := Converted (Binding.class b) user_input members in
  validate p inputs =
  if type_in (type_of user_input) members
  then ([conversion; Validated (Binding.class b) converted],
        semantic b (Param.name p) (TUnion members) converted)
  else ([conversion], Raise (mismatch p)).
Proof.
  intros Ht Hraw Hlist. cbn zeta.
  assert (prepare (TUnion members) user_input
          = union_checks (TUnion members) user_input) as Hp.
  { rewrite prepare_union.
    destruct (elected members user_input) as [member|] eqn:He; [|reflexivity].
    destruct (elected_is_list _ _ _ He) as (? & ? & _ & _ & -> & _).
    discriminate. }
  rewrite (validate_raw_value _ _ _ Hraw).
  rewrite check_scalar; rewrite Ht; try discriminate; rewrite Hp; reflexivity.
Qed.

Lemma union_of_scalar_value_witness :
  validate Test.password_expiry {[ Json := {[ "password_expiry" := VStr "7" ]} ]}
  = ([Converted Json (VStr "7") [TCls c_int; TCls c_float]],
     Raise (mismatch Test.password_expiry)).
Proof.
  exact (union_of_scalar_value Test.password_expiry
           {[ Json := {[ "password_expiry" := VStr "7" ]} ]}
           [TCls c_int; TCls c_float] (VStr "7") eq_refl eq_refl eq_refl).
Defined.



(** ** Election by a list that has elements *)

Lemma matches_nonempty first rest member :
  matches (VList (first :: rest)) member = true ->
  member = TList (TCls (type_of first)).
Proof.
  destruct member as [c| |ms|elt]; try discriminate.
  cbn [matches all_type_in forallb type_in existsb].
  destruct elt; try discriminate.
  rewrite orb_false_r. intros [Hc _]%andb_true_iff.
  by apply bool_decide_eq_true in Hc as ->.
Qed.

(** X13. A raw list with at least one element can elect one member of a
    union only, the list type of the class of its first element: a member
    is elected exactly if it belongs to the union and matches the list, so
    the order of the members plays no part (it does for the empty list
    alone, which every list member matches). *)
Theorem election_by_nonempty_list members first rest member :
  elected members (VList (first :: rest)) = Some member
  <-> member ∈ members /\ matches (VList (first :: rest)) member = true.
Proof.
  unfold elected. split.
  - intros Hl. apply last_Some_elem_of in Hl.
    by apply list_elem_of_filter in Hl as [Hm Hin].
  - intros [Hin Hm].
    assert (member ∈ filter (fun m => matches (VList (first :: rest)) m = true) members)
      as Hf by (by apply list_elem_of_filter).
    destruct (last (filter _ members)) as [m'|] eqn:Hl.
    + apply last_Some_elem_of in Hl.
      apply list_elem_of_filter in Hl as [Hm' _].
      apply matches_nonempty in Hm, Hm'. congruence.
    + apply last_None in Hl. rewrite Hl in Hf. by apply not_elem_of_nil in Hf.
Qed.

(** ** Every session *)

(** The parameters of a handler either all validate, or have a first one
    that raises. *)
Lemma first_failure inputs ps :
  Forall (succeeds inputs) ps
  \/ exists before failing after e,
       ps = before ++ failing :: after
       /\ Forall (succeeds inputs) before
       /\ (validate failing inputs).2 = Raise e.
Proof.
  induction ps as [|p ps [IH|(before & failing & after & e & -> & Hok & He)]].
  - left. constructor.
  - destruct (validate p inputs) as [log [v|e]] eqn:Hv.
    + left. constructor; [|assumption]. exists v. by rewrite Hv.
    + right. exists [], p, ps, e. repeat split; [constructor|by rewrite Hv].
  - destruct (validate p inputs) as [log [v|e']] eqn:Hv.
    + right. exists (p :: before), failing, after, e.
      repeat split; [|assumption].
      constructor; [|assumption]. exists v. by rewrite Hv.
    + right. exists [], p, (before ++ failing :: after), e'.
      repeat split; [constructor|by rewrite Hv].
Qed.

(** X12. Every call of [nested_func] ends in one of two ways.  Either all
    declared parameters validate, in declaration order, and the answer is
    the handler's, called with the keyword arguments of the call.  Or the
    parameters validate up to a first one that raises an exception [e]; no
    later parameter is looked at, and the answer is the custom error
    handler's for [e] if one is configured; without one it is the payload
    with status 400 if [e] is a [MissingInputError] or a [ValidationError],
    and any other exception (a source that is no delivery class, an
    exception of the binding's validator that is no [ValueError], the
    [TypeError] of iterating over a value that cannot be) leaves
    [nested_func]. *)
Theorem session_outcomes {R} exc_str (handler : option (exn -> R))
    (f : dict -> R) ps request kwargs :
  let inputs := request_inputs request kwargs in
  let session := nested_func exc_str handler f ps request kwargs in
  (Forall (succeeds inputs) ps
   /\ session = (logs inputs ps, Returns (f kwargs)))
  \/ (exists before failing after e,
        ps = before ++ failing :: after
        /\ Forall (succeeds inputs) before
        /\ (validate failing inputs).2 = Raise e
        /\ session
           = (logs inputs before ++ (validate failing inputs).1,
              match handler with
              | Some h => Returns (h e)
              | None =>
                  if request_error e then ErrorPayload (exc_str e) 400
                  else Propagates e
              end)).
Proof.
  cbn zeta.
  destruct (first_failure (request_inputs request kwargs) ps)
    as [Hok|(before & failing & after & e & -> & Hok & He)].
  - left. split; [assumption|]. by apply session_success.
  - right. exists before, failing, after, e. repeat split; try assumption.
    unfold nested_func. rewrite validate_each_prefix by assumption.
    destruct (validate failing _) as [log r] eqn:Hv. cbn in He. subst r.
    by rewrite (validate_each_raise _ _ _ _ _ _ _ _ _ _ Hv).
Qed.

(** ** List parameters *)

(** X14. A parameter declared as a list, for a raw value that can be
    iterated over: the type check passes exactly when every element the
    raw value yields (the elements of a list, the characters of a string,
    the keys of a mapping) has a class that is the declared element type
    and [convert] has returned a list.  The elements of the list that
    [convert] returned are not looked at. *)
Theorem list_parameter_checks_raw_elements p inputs elt user_input checked :
  Param.annotation p = TList elt ->
  raw_value p inputs = Some user_input ->
  iter user_input = Some checked ->
  let b := Param.default p in
  let converted := Binding.convert b user_input [elt] in
  let conversion := Converted (Binding.class b) user_input [elt] in
  validate p inputs =
  if all_type_in [elt] checked && is_list converted
  then ([conversion; Validated (Binding.class b) converted],
        semantic b (Param.name p) (TList elt) converted)
  else ([conversion], Raise (mismatch p)).
Proof.
  intros Ht Hraw Hiter. cbn zeta.
  rewrite (validate_raw_value _ _ _ Hraw).
  rewrite check_steps by (rewrite Ht; discriminate).
  rewrite Ht, prepare_list.
  cbn [list_checks user_inputs expected_input_types expected_input_type args].
  by rewrite Hiter.
Qed.

Lemma list_parameter_checks_raw_elements_witness :
  validate Test.nicknames {[ Json := {[ "nicknames" := VList [VStr "al"; VInt 7] ]} ]}
  = ([Converted Json (VList [VStr "al"; VInt 7]) [TCls c_str]],
     Raise (mismatch Test.nicknames)).
Proof.
  exact (list_parameter_checks_raw_elements Test.nicknames
    {[ Json := {[ "nicknames" := VList [VStr "al"; VInt 7] ]} ]}
    (TCls c_str) (VList [VStr "al"; VInt 7]) [VStr "al"; VInt 7]
    eq_refl eq_refl eq_refl).
Defined.
